(** * haveServerDataSelectors: the server-data consistency gate

    A shallow embedding of [src/haveServerDataSelectors.js] and proofs of
    the properties its specification states about the two selectors
    [getHaveServerDataGlobal] and [getHaveServerData].

    The JavaScript selectors only read the state object they are handed,
    may throw, and call other selectors.  They are embedded in a small
    monad [Sel] that passes the state object explicitly (so that "the
    bundle is not mutated" is a statement about the final store), keeps a
    log of the selector calls and property reads performed (so that "is
    not evaluated" is a statement about the log), and returns a
    completion that is either a normal value or a thrown exception. *)

From stdpp Require Import base option list gmap strings.

Open Scope Z_scope.

(** ** Data model *)

(** User identifiers are JavaScript integers. *)
Definition UserId := Z.

(** Modelled from the spec: the type [Auth] of [./types] is not part of
    the source fragment; the spec describes it as a credential carrying a
    token. *)
Record Auth := { token : string }.

(** Modelled from the spec: the type [User] of [./types] is not part of
    the source fragment; the spec describes a record with a unique
    identifier ([id]) and a [name]. *)
Module User.
Record t := { user_id : UserId; name : string }.
End User.

(** [state.realm]: the selector reads [state.realm.user_id], which may be
    [undefined].  The source's comments name the delivery email as another
    field of the same subtree. *)
Record RealmState := {
  user_id : option UserId;
  email : option string;
}.

(** [PerAccountState] (the spec's AccountBundle).  [messages] and
    [narrows] are the other subtrees the source's comments name; the gate
    does not look at them. *)
Record PerAccountState := {
  auth : option Auth;
  users : list User.t;
  realm : RealmState;
  messages : gmap Z string;
  narrows : gmap string (list Z);
}.

(** Modelled from the spec: [GlobalState] (the spec's MultiAccountStore)
    is not part of the source fragment; the spec describes an optional
    active selection plus a collection of per-account bundles. *)
Definition AccountId := string.

Record GlobalState := {
  activeAccount : option AccountId;
  accountStates : gmap AccountId PerAccountState;
}.

(** ** Selectors as logged, store-passing computations *)

(** What a selector call can leave in the log. *)
Inductive Event :=
  | Call_getHaveServerDataGlobal
  | Call_getHaveServerData
  | Call_tryGetActiveAccountState
  | Call_tryGetAuth
  | Call_getUsers
  | Call_getUsersById
  | Get_realm_user_id.

Inductive Exception := TypeError.

Inductive completion (A : Type) :=
  | Normal (a : A)
  | Throw (e : Exception).
Arguments Normal {A} a.
Arguments Throw {A} e.

(** The outcome of running a selector: the state object afterwards, the
    log, and the completion. *)
Record Run (S A : Type) := MkRun {
  store : option S;
  log : list Event;
  result : completion A;
}.
Arguments MkRun {S A} store log result.
Arguments store {S A} _.
Arguments log {S A} _.
Arguments result {S A} _.

(** A selector is run on the state object it is passed.  Flow's types are
    erased in the running program, so the object may be [undefined]
    ([None]). *)
Definition Sel (S A : Type) : Type := option S → Run S A.

Section Sel.
Context {S : Type}.

Definition sel_ret {A} (a : A) : Sel S A :=
  λ st, MkRun st [] (Normal a).

Definition sel_bind {A B} (f : A → Sel S B) (m : Sel S A) : Sel S B :=
  λ st,
    let r := m st in
    match result r with
    | Normal a =>
        let r' := f a (store r) in
        MkRun (store r') (log r ++ log r') (result r')
    | Throw e => MkRun (store r) (log r) (Throw e)
    end.

(** Entering a function body. *)
Definition enter (ev : Event) : Sel S () :=
  λ st, MkRun st [ev] (Normal ()).

(** Reading from the state object: a read of a property of [undefined]
    throws a [TypeError]; a read never changes the object. *)
Definition select {A} (ev : Event) (f : S → A) : Sel S A :=
  λ st,
    match st with
    | Some s => MkRun st [ev] (Normal (f s))
    | None => MkRun st [ev] (Throw TypeError)
    end.
End Sel.

#[global] Instance sel_mret {S} : MRet (Sel S) := @sel_ret S.
#[global] Instance sel_mbind {S} : MBind (Sel S) := @sel_bind S.

(** Calling a selector [m] on an object [t] that lives inside the store
    of the caller: whatever [m] does to [t] is seen in the caller's store
    through [put]. *)
Definition call_on {S T A} (put : T → S → S) (t : option T) (m : Sel T A)
    : Sel S A :=
  λ st,
    let r := m t in
    MkRun (match store r, st with
           | Some t', Some s => Some (put t' s)
           | _, _ => st
           end) (log r) (result r).

(** JavaScript truthiness of a value that is an object or [undefined]. *)
Definition truthy {A} (v : option A) : bool :=
  match v with Some _ => true | None => false end.

(** ** The selectors this file imports *)

(** Modelled from the spec: [tryGetAuth] of [./account/accountsSelectors]
    is not part of the source fragment; the spec describes it as the
    accessor for the [auth] field, absent when the account is not logged
    in. *)
Definition tryGetAuth : Sel PerAccountState (option Auth) :=
  select Call_tryGetAuth auth.

(** Modelled from the spec: [getUsers] of [./directSelectors] is not part
    of the source fragment; the spec describes it as the accessor for the
    ordered [users] collection. *)
Definition getUsers : Sel PerAccountState (list User.t) :=
  select Call_getUsers users.

(** The map from identifier to record is filled in the order of the
    collection, as JavaScript's [new Map(entries)] does: a later record
    replaces an earlier one with the same identifier. *)
Definition insertUser (m : gmap UserId User.t) (u : User.t)
    : gmap UserId User.t :=
  <[User.user_id u := u]> m.

Definition usersById (us : list User.t) : gmap UserId User.t :=
  foldl insertUser ∅ us.
Arguments usersById : simpl never.

(** Modelled from the spec: [getUsersById] of [./users/userSelectors] is
    not part of the source fragment; the spec describes it as a lookup
    from user identifier to user record with defined-or-absent
    semantics, over the records of [users]. *)
Definition getUsersById : Sel PerAccountState (gmap UserId User.t) :=
  select Call_getUsersById (λ s, usersById (users s)).

(** The bundle the active marker selects, if any. *)
Definition activeAccountState (g : GlobalState) : option PerAccountState :=
  a ← activeAccount g; accountStates g !! a.

(** Modelled from the spec: [tryGetActiveAccountState] of
    [./account/accountsSelectors] is not part of the source fragment; the
    spec describes it as returning the bundle currently marked active, or
    none when no account exists or the active marker is unset. *)
Definition tryGetActiveAccountState
    : Sel GlobalState (option PerAccountState) :=
  select Call_tryGetActiveAccountState activeAccountState.

(** Writing the active bundle back into the store it was taken from. *)
Definition putActiveAccountState (s : PerAccountState) (g : GlobalState)
    : GlobalState :=
  match activeAccount g with
  | Some a =>
      {| activeAccount := activeAccount g;
         accountStates := <[a := s]> (accountStates g) |}
  | None => g
  end.

(** ** The two gates of [haveServerDataSelectors.js] *)

(** [getHaveServerData], lines 53-175. *)
Definition getHaveServerData : Sel PerAccountState bool :=
  enter Call_getHaveServerData ;;
  a ← tryGetAuth;
  if negb (truthy a) then mret false
  else
    us ← getUsers;
    if (Z.of_nat (length us) =? 0) then mret false
    else
      ownUserId ← select Get_realm_user_id (λ state, user_id (realm state));
      match ownUserId with
      | None => mret false
      | Some ownUserId =>
          byId ← getUsersById;
          if negb (truthy (byId !! ownUserId)) then mret false
          else mret true
      end.

(** [getHaveServerDataGlobal], lines 17-40. *)
Definition getHaveServerDataGlobal : Sel GlobalState bool :=
  enter Call_getHaveServerDataGlobal ;;
  state ← tryGetActiveAccountState;
  if negb (truthy state) then mret false
  else call_on putActiveAccountState state getHaveServerData.

(** ** The spec's definition of valid server data *)

(** The four-way conjunction of the spec, in its words: the credential is
    present, the collection of users is not empty, the self identifier is
    defined, and it is the identifier of some record of the collection. *)
Definition validServerData (s : PerAccountState) : Prop :=
  is_Some (auth s)
  ∧ users s ≠ []
  ∧ ∃ i, user_id (realm s) = Some i
         ∧ ∃ u, u ∈ users s ∧ User.user_id u = i.

(** The value the gate computes, check by check. *)
Definition gateValue (s : PerAccountState) : bool :=
  match auth s with
  | None => false
  | Some _ =>
      match users s with
      | [] => false
      | _ :: _ =>
          match user_id (realm s) with
          | None => false
          | Some i => truthy (usersById (users s) !! i)
          end
      end
  end.

Ltac run_sel :=
  unfold getHaveServerDataGlobal, getHaveServerData, tryGetActiveAccountState,
    tryGetAuth, getUsers, getUsersById, call_on, enter, select,
    mbind, mret, sel_mbind, sel_mret, sel_bind, sel_ret;
  simpl.

(** ** Concrete states *)

(** The scenarios of the spec's section 8. *)
Definition validBundle : PerAccountState :=
  {| auth := Some {| token := "t" |};
     users := [ {| User.user_id := 7; User.name := "a" |} ];
     realm := {| user_id := Some 7; email := None |};
     messages := ∅;
     narrows := ∅ |}.

Definition tornBundle : PerAccountState :=
  {| auth := Some {| token := "t" |};
     users := [ {| User.user_id := 7; User.name := "" |} ];
     realm := {| user_id := Some 9; email := None |};
     messages := ∅;
     narrows := ∅ |}.

Definition emptyUsersBundle : PerAccountState :=
  {| auth := Some {| token := "t" |};
     users := [];
     realm := {| user_id := None; email := None |};
     messages := ∅;
     narrows := ∅ |}.

(** The valid bundle after logout: only the credential is gone. *)
Definition loggedOutBundle : PerAccountState :=
  {| auth := None;
     users := users validBundle;
     realm := realm validBundle;
     messages := ∅;
     narrows := ∅ |}.

(** The valid bundle with another credential and other contents in every
    subtree the gate does not read. *)
Definition busyBundle : PerAccountState :=
  {| auth := Some {| token := "another token" |};
     users := users validBundle;
     realm := {| user_id := Some 7; email := Some "a@example.org" |};
     messages := {[ 1 := "hello" ]};
     narrows := {[ "stream:general" := [1] ]} |}.

(** A store whose only account is valid but not marked active. *)
Definition unselectedStore : GlobalState :=
  {| activeAccount := None;
     accountStates := {[ "a@chat.example.org" := validBundle ]} |}.

(** A store whose active account is the torn bundle, next to a valid
    one. *)
Definition tornStore : GlobalState :=
  {| activeAccount := Some "b@chat.example.org";
     accountStates := {[ "a@chat.example.org" := validBundle;
                         "b@chat.example.org" := tornBundle ]} |}.

(** The valid bundle with its users renamed, repeated and joined by
    another one. *)
Definition crowdedBundle : PerAccountState :=
  {| auth := Some {| token := "t" |};
     users := [ {| User.user_id := 7; User.name := "renamed" |};
                {| User.user_id := 7; User.name := "a" |} ];
     realm := {| user_id := Some 7; email := None |};
     messages := ∅;
     narrows := ∅ |}.

(** A store with the same active bundle as [tornStore], under another
    account and with no other account beside it. *)
Definition tornOnlyStore : GlobalState :=
  {| activeAccount := Some "c@chat.example.org";
     accountStates := {[ "c@chat.example.org" := tornBundle ]} |}.

(** * Proofs *)

(** ** The map from identifiers to records *)

Section usersById.
Implicit Types (us : list User.t) (m : gmap UserId User.t) (i : UserId).

Lemma foldl_step_lookup us m i u :
  foldl insertUser m us !! i = Some u →
  m !! i = Some u ∨ (u ∈ us ∧ User.user_id u = i).
Proof.
  revert m. induction us as [|v us IH]; intros m; simpl.
  - by left.
  - intros H. apply IH in H as [H | [Hin Hid]].
    + unfold insertUser in H.
      destruct (decide (User.user_id v = i)) as [Heq | Hne].
      * rewrite Heq, lookup_insert_eq in H. injection H as ->.
        right. split; [apply elem_of_cons; by left | done].
      * rewrite lookup_insert_ne in H by done. by left.
    + right. split; [apply elem_of_cons; by right | done].
Qed.

Lemma foldl_step_is_Some us m i :
  is_Some (m !! i) ∨ (∃ u, u ∈ us ∧ User.user_id u = i) →
  is_Some (foldl insertUser m us !! i).
Proof.
  revert m. induction us as [|v us IH]; intros m; simpl.
  - intros [H | (u & Hin & _)]; [done | by apply elem_of_nil in Hin].
  - intros H. apply IH. unfold insertUser.
    destruct (decide (User.user_id v = i)) as [Heq | Hne].
    + left. rewrite Heq, lookup_insert_eq. by eexists.
    + rewrite lookup_insert_ne by done.
      destruct H as [H | (u & Hin & Hid)]; [by left |].
      apply elem_of_cons in Hin as [-> | Hin]; [done |].
      right. by exists u.
Qed.

(** A lookup that succeeds returns a record of the collection that
    carries the identifier looked up. *)
Lemma usersById_Some us i u :
  usersById us !! i = Some u → u ∈ us ∧ User.user_id u = i.
Proof.
  intros H. apply foldl_step_lookup in H as [H | H]; [| done].
  by rewrite lookup_empty in H.
Qed.

(** A lookup succeeds exactly on the identifiers of the collection. *)
Lemma usersById_is_Some us i :
  is_Some (usersById us !! i) ↔ ∃ u, u ∈ us ∧ User.user_id u = i.
Proof.
  split.
  - intros [u H]. exists u. by apply usersById_Some.
  - intros H. apply foldl_step_is_Some. by right.
Qed.

Lemma usersById_None us i :
  usersById us !! i = None ↔ ∀ u, u ∈ us → User.user_id u ≠ i.
Proof.
  rewrite eq_None_not_Some, usersById_is_Some. split.
  - intros H u Hin Hid. apply H. by exists u.
  - intros H (u & Hin & Hid). by apply (H u).
Qed.
End usersById.

(** ** Running the per-account gate *)

(** On a bundle the gate returns normally, with the value of its checks,
    and leaves the bundle as it was. *)
Lemma getHaveServerData_result s :
  result (getHaveServerData (Some s)) = Normal (gateValue s).
Proof.
  unfold gateValue. run_sel.
  destruct (auth s); simpl; [| done].
  destruct (users s) as [|u us] eqn:Hus; simpl; [done |].
  destruct (user_id (realm s)) as [i|]; simpl; [| done].
  rewrite <- Hus. by destruct (usersById (users s) !! i).
Qed.

Lemma getHaveServerData_store st :
  store (getHaveServerData st) = st.
Proof.
  destruct st as [s|]; run_sel; [| done].
  destruct (auth s); simpl; [| done].
  destruct (users s) as [|u us] eqn:Hus; simpl; [done |].
  destruct (user_id (realm s)) as [i|]; simpl; [| done].
  by destruct (usersById (users s) !! i).
Qed.

(** Every evaluation of the gate is recorded in the log. *)
Lemma getHaveServerData_logged st :
  Call_getHaveServerData ∈ log (getHaveServerData st).
Proof.
  destruct st as [s|]; run_sel; [| apply elem_of_cons; by left].
  destruct (auth s); simpl; [| apply elem_of_cons; by left].
  apply elem_of_cons; by left.
Qed.

Lemma gateValue_true s : gateValue s = true ↔ validServerData s.
Proof.
  unfold gateValue, validServerData. split.
  - destruct (auth s) as [a|]; [| done].
    destruct (users s) as [|u us] eqn:Hus; [done |].
    destruct (user_id (realm s)) as [i|]; [| done].
    destruct (usersById (u :: us) !! i) as [v|] eqn:Hv; [| done].
    intros _. apply usersById_Some in Hv as [Hin Hid].
    split; [by eexists |]. split; [done |]. exists i. split; [done |].
    by exists v.
  - intros ([a ->] & Hne & i & -> & Hex).
    destruct (users s) as [|u us]; [done |].
    apply usersById_is_Some in Hex as [v ->]. done.
Qed.

Lemma gateValue_false s : gateValue s = false ↔ ¬ validServerData s.
Proof.
  rewrite <- gateValue_true. by destruct (gateValue s).
Qed.

(** The log of a run on a bundle stops at the first check that fails. *)
Lemma getHaveServerData_log s :
  log (getHaveServerData (Some s)) =
    [Call_getHaveServerData; Call_tryGetAuth]
    ++ match auth s with
       | None => []
       | Some _ =>
           Call_getUsers
           :: match users s with
              | [] => []
              | _ :: _ =>
                  Get_realm_user_id
                  :: match user_id (realm s) with
                     | None => []
                     | Some _ => [Call_getUsersById]
                     end
              end
       end.
Proof.
  run_sel.
  destruct (auth s); simpl; [| done].
  destruct (users s) as [|u us] eqn:Hus; simpl; [done |].
  destruct (user_id (realm s)) as [i|]; simpl; [| done].
  by destruct (usersById (users s) !! i).
Qed.

(** ** Running the global gate *)

Lemma activeAccountState_None g :
  accountStates g = ∅ ∨ activeAccount g = None → activeAccountState g = None.
Proof.
  unfold activeAccountState. intros [H | H]; rewrite H; [| done].
  destruct (activeAccount g); simpl; [apply lookup_empty | done].
Qed.

Lemma putActiveAccountState_id g s :
  activeAccountState g = Some s → putActiveAccountState s g = g.
Proof.
  unfold activeAccountState, putActiveAccountState.
  destruct g as [[a|] bs]; simpl; [| done].
  intros H. f_equal. by apply insert_id.
Qed.

Lemma getHaveServerDataGlobal_Some g s :
  activeAccountState g = Some s →
  getHaveServerDataGlobal (Some g) =
    MkRun (Some g)
      ([Call_getHaveServerDataGlobal; Call_tryGetActiveAccountState]
       ++ log (getHaveServerData (Some s)))
      (result (getHaveServerData (Some s))).
Proof.
  intros H.
  unfold getHaveServerDataGlobal, tryGetActiveAccountState, call_on, enter,
    select, mbind, mret, sel_mbind, sel_mret, sel_bind, sel_ret.
  cbn [store log result app]. rewrite H. cbn [store log result app truthy negb].
  rewrite getHaveServerData_store.
  by rewrite putActiveAccountState_id.
Qed.

(** ** The per-account gate *)

(** C1: on every bundle [getHaveServerData] returns [true] exactly when
    the four conditions hold together (credential present, users not
    empty, [realm.user_id] defined, and equal to the identifier of some
    record of users), and returns [false] exactly when they do not. *)
Theorem getHaveServerData_iff_validServerData (s : PerAccountState) :
  (result (getHaveServerData (Some s)) = Normal true ↔ validServerData s)
  ∧ (result (getHaveServerData (Some s)) = Normal false
     ↔ ¬ validServerData s).
Proof.
  rewrite getHaveServerData_result. split.
  - rewrite <- gateValue_true. split; congruence.
  - rewrite <- gateValue_false. split; congruence.
Qed.

(** C2: on every bundle without a credential [getHaveServerData] returns
    [false], whatever the users and realm subtrees hold. *)
Theorem getHaveServerData_auth_absent (s : PerAccountState) :
  auth s = None →
  result (getHaveServerData (Some s)) = Normal false.
Proof.
  intros H. rewrite getHaveServerData_result. unfold gateValue.
  by rewrite H.
Qed.

(** The bundle of the witness has users and a matching self identifier;
    only its credential is absent. *)
Lemma getHaveServerData_auth_absent_witness :
  auth loggedOutBundle = None
  ∧ users loggedOutBundle ≠ []
  ∧ usersById (users loggedOutBundle) !! 7 =
      Some {| User.user_id := 7; User.name := "a" |}
  ∧ result (getHaveServerData (Some loggedOutBundle)) = Normal false.
Proof.
  split; [reflexivity |]. split; [discriminate |].
  split; [vm_compute; reflexivity |].
  apply (getHaveServerData_auth_absent loggedOutBundle). reflexivity.
Defined.

(** C3: on every bundle with a credential, a non-empty collection of
    users and a defined [realm.user_id] that is the identifier of none of
    the users, [getHaveServerData] returns [false].  The witness below is
    the spec's bundle: token "t", one user with identifier 7, self
    identifier 9. *)
Theorem getHaveServerData_self_user_missing (s : PerAccountState)
    (i : UserId) :
  is_Some (auth s) →
  users s ≠ [] →
  user_id (realm s) = Some i →
  (∀ u, u ∈ users s → User.user_id u ≠ i) →
  result (getHaveServerData (Some s)) = Normal false.
Proof.
  intros [a Ha] Hus Hi Hno. rewrite getHaveServerData_result.
  unfold gateValue. rewrite Ha, Hi.
  destruct (users s) as [|u us] eqn:E; [done |].
  apply usersById_None in Hno. by rewrite Hno.
Qed.

Lemma getHaveServerData_self_user_missing_witness :
  result (getHaveServerData (Some tornBundle)) = Normal false.
Proof.
  apply (getHaveServerData_self_user_missing tornBundle 9).
  - exists {| token := "t" |}. reflexivity.
  - discriminate.
  - reflexivity.
  - intros u Hu. apply list_elem_of_singleton in Hu. rewrite Hu.
    simpl. discriminate.
Defined.

(** C4: on every bundle with a credential and an empty collection of
    users [getHaveServerData] returns [false], whatever the realm subtree
    holds. *)
Theorem getHaveServerData_users_empty (s : PerAccountState) :
  is_Some (auth s) →
  users s = [] →
  result (getHaveServerData (Some s)) = Normal false.
Proof.
  intros [a Ha] Hus. rewrite getHaveServerData_result.
  unfold gateValue. by rewrite Ha, Hus.
Qed.

Lemma getHaveServerData_users_empty_witness :
  result (getHaveServerData (Some emptyUsersBundle)) = Normal false.
Proof.
  apply (getHaveServerData_users_empty emptyUsersBundle).
  - exists {| token := "t" |}. reflexivity.
  - reflexivity.
Defined.

(** C7: on every bundle [getHaveServerData] leaves the bundle as it was
    and completes normally with a boolean; each of the four failures
    (credential absent, users empty, [realm.user_id] undefined,
    [realm.user_id] not among the users) gives the value [false], not an
    exception. *)
Theorem getHaveServerData_pure_total (s : PerAccountState) :
  store (getHaveServerData (Some s)) = Some s
  ∧ (∃ b, result (getHaveServerData (Some s)) = Normal b)
  ∧ (auth s = None →
     result (getHaveServerData (Some s)) = Normal false)
  ∧ (users s = [] →
     result (getHaveServerData (Some s)) = Normal false)
  ∧ (user_id (realm s) = None →
     result (getHaveServerData (Some s)) = Normal false)
  ∧ (∀ i, user_id (realm s) = Some i →
          (∀ u, u ∈ users s → User.user_id u ≠ i) →
          result (getHaveServerData (Some s)) = Normal false).
Proof.
  split; [apply getHaveServerData_store |].
  rewrite getHaveServerData_result. split; [by eexists |].
  unfold gateValue. repeat split.
  - by intros ->.
  - intros ->. by destruct (auth s).
  - intros ->. by destruct (auth s), (users s).
  - intros i -> Hno. apply usersById_None in Hno. rewrite Hno.
    by destruct (auth s), (users s).
Qed.

Lemma getHaveServerData_pure_total_witness :
  store (getHaveServerData (Some emptyUsersBundle)) = Some emptyUsersBundle
  ∧ result (getHaveServerData (Some emptyUsersBundle)) = Normal false.
Proof.
  destruct (getHaveServerData_pure_total emptyUsersBundle)
    as (Hstore & _ & _ & Hempty & _).
  split; [exact Hstore | apply Hempty; reflexivity].
Defined.

(** C9: two bundles that agree on whether a credential is present, on
    the collection of users and on [realm.user_id] get the same answer
    from [getHaveServerData]; the contents of the credential and of every
    other subtree do not matter. *)
Theorem getHaveServerData_noninterference (s1 s2 : PerAccountState) :
  (is_Some (auth s1) ↔ is_Some (auth s2)) →
  users s1 = users s2 →
  user_id (realm s1) = user_id (realm s2) →
  result (getHaveServerData (Some s1)) = result (getHaveServerData (Some s2)).
Proof.
  intros Ha Hu Hi. rewrite !getHaveServerData_result. f_equal.
  unfold gateValue. rewrite Hu, Hi.
  destruct (auth s1) as [a1|], (auth s2) as [a2|]; try done.
  - destruct Ha as [Ha _]. by destruct Ha.
  - destruct Ha as [_ Ha]. by destruct Ha.
Qed.

(** The two bundles of the witness differ in the token, in the rest of
    the realm subtree, in the messages and in the narrows. *)
Lemma getHaveServerData_noninterference_witness :
  auth validBundle ≠ auth busyBundle
  ∧ realm validBundle ≠ realm busyBundle
  ∧ messages validBundle !! 1 ≠ messages busyBundle !! 1
  ∧ result (getHaveServerData (Some validBundle)) =
      result (getHaveServerData (Some busyBundle)).
Proof.
  split; [discriminate |]. split; [discriminate |].
  split; [vm_compute; discriminate |].
  apply (getHaveServerData_noninterference validBundle busyBundle).
  - split; intros _; eexists; reflexivity.
  - reflexivity.
  - reflexivity.
Defined.

(** C10: when [getHaveServerData] returns [true] on a bundle, the bundle
    it leaves has its [realm.user_id] defined, and looking that
    identifier up in the map [getUsersById] gives for that bundle yields
    a record of its users with that identifier. *)
Theorem getHaveServerData_true_own_user (s : PerAccountState) :
  result (getHaveServerData (Some s)) = Normal true →
  ∃ (i : UserId) (u : User.t) (byId : gmap UserId User.t),
    store (getHaveServerData (Some s)) = Some s
    ∧ user_id (realm s) = Some i
    ∧ result (getUsersById (store (getHaveServerData (Some s))))
      = Normal byId
    ∧ byId !! i = Some u
    ∧ u ∈ users s
    ∧ User.user_id u = i.
Proof.
  intros H. rewrite getHaveServerData_store.
  rewrite getHaveServerData_result in H. injection H as H.
  apply gateValue_true in H as (_ & _ & i & Hi & Hex).
  apply usersById_is_Some in Hex as [u Hu].
  exists i, u, (usersById (users s)).
  destruct (usersById_Some _ _ _ Hu) as [Hin Hid].
  by repeat split.
Qed.

Lemma getHaveServerData_true_own_user_witness :
  result (getHaveServerData (Some validBundle)) = Normal true
  ∧ ∃ (u : User.t) (byId : gmap UserId User.t),
      result (getUsersById (Some validBundle)) = Normal byId
      ∧ byId !! 7 = Some u.
Proof.
  assert (Hrun : result (getHaveServerData (Some validBundle)) = Normal true)
    by (vm_compute; reflexivity).
  split; [exact Hrun |].
  destruct (getHaveServerData_true_own_user validBundle Hrun)
    as (i & u & byId & Hstore & Hi & Hmap & Hget & _).
  exists u, byId. rewrite Hstore in Hmap. split; [exact Hmap |].
  injection Hi as <-. exact Hget.
Defined.

(** ** The global gate *)

(** C5: on every store whose active-account resolution yields no bundle,
    [getHaveServerDataGlobal] returns [false] right after the resolution:
    the per-account gate is not evaluated, and the store is left as it
    was. *)
Theorem getHaveServerDataGlobal_no_active (g : GlobalState) :
  result (tryGetActiveAccountState (Some g)) = Normal None →
  getHaveServerDataGlobal (Some g) =
    MkRun (Some g)
      [Call_getHaveServerDataGlobal; Call_tryGetActiveAccountState]
      (Normal false)
  ∧ Call_getHaveServerData ∉ log (getHaveServerDataGlobal (Some g)).
Proof.
  intros H. injection H as H.
  assert (E : getHaveServerDataGlobal (Some g) =
    MkRun (Some g)
      [Call_getHaveServerDataGlobal; Call_tryGetActiveAccountState]
      (Normal false)).
  { run_sel. by rewrite H. }
  split; [exact E |]. rewrite E. simpl.
  intros Hin. apply elem_of_cons in Hin as [Hin | Hin]; [done |].
  apply list_elem_of_singleton in Hin. done.
Qed.

(** The store of the first part has a valid account but no active marker;
    the store of the second has a marker but no account. *)
Lemma getHaveServerDataGlobal_no_active_witness :
  result (getHaveServerDataGlobal (Some unselectedStore)) = Normal false
  ∧ result (getHaveServerDataGlobal
              (Some {| activeAccount := Some "a@chat.example.org";
                       accountStates := ∅ |})) = Normal false.
Proof.
  split.
  - destruct (getHaveServerDataGlobal_no_active unselectedStore) as [E _].
    + reflexivity.
    + rewrite E. reflexivity.
  - destruct (getHaveServerDataGlobal_no_active
                {| activeAccount := Some "a@chat.example.org";
                   accountStates := ∅ |}) as [E _].
    + vm_compute. reflexivity.
    + rewrite E. reflexivity.
Defined.

(** C6: on every store whose active-account resolution yields a bundle,
    [getHaveServerDataGlobal] returns what [getHaveServerData] returns on
    that bundle, and does nothing else after the resolution than run
    it. *)
Theorem getHaveServerDataGlobal_delegates (g : GlobalState)
    (s : PerAccountState) :
  result (tryGetActiveAccountState (Some g)) = Normal (Some s) →
  result (getHaveServerDataGlobal (Some g)) =
    result (getHaveServerData (Some s))
  ∧ log (getHaveServerDataGlobal (Some g)) =
      [Call_getHaveServerDataGlobal; Call_tryGetActiveAccountState]
      ++ log (getHaveServerData (Some s)).
Proof.
  intros H. injection H as H.
  by rewrite (getHaveServerDataGlobal_Some g s H).
Qed.

Lemma getHaveServerDataGlobal_delegates_witness :
  result (tryGetActiveAccountState (Some tornStore)) = Normal (Some tornBundle)
  ∧ result (getHaveServerDataGlobal (Some tornStore)) =
      result (getHaveServerData (Some tornBundle)).
Proof.
  assert (H : result (tryGetActiveAccountState (Some tornStore))
              = Normal (Some tornBundle)) by (vm_compute; reflexivity).
  split; [exact H |].
  apply (getHaveServerDataGlobal_delegates tornStore tornBundle H).
Defined.

(** ** Further properties of the two gates *)

Lemma getHaveServerDataGlobal_None g :
  activeAccountState g = None →
  getHaveServerDataGlobal (Some g) =
    MkRun (Some g)
      [Call_getHaveServerDataGlobal; Call_tryGetActiveAccountState]
      (Normal false).
Proof.
  intros H. run_sel. by rewrite H.
Qed.

(** X1: the checks of [getHaveServerData] run in order and stop at the
    first that fails: users are read only with a credential, the self
    identifier only with users, and the map from identifiers to records
    is asked for only when the self identifier is defined. *)
Theorem getHaveServerData_short_circuit (s : PerAccountState) :
  (Call_getUsers ∈ log (getHaveServerData (Some s)) ↔ is_Some (auth s))
  ∧ (Get_realm_user_id ∈ log (getHaveServerData (Some s))
     ↔ is_Some (auth s) ∧ users s ≠ [])
  ∧ (Call_getUsersById ∈ log (getHaveServerData (Some s))
     ↔ is_Some (auth s) ∧ users s ≠ [] ∧ is_Some (user_id (realm s))).
Proof.
  rewrite getHaveServerData_log.
  destruct (auth s) as [a|], (users s) as [|u us],
    (user_id (realm s)) as [i|]; simpl;
    rewrite ?elem_of_cons, ?elem_of_nil, <- ?not_eq_None_Some;
    intuition congruence.
Qed.


(** X3: [getHaveServerDataGlobal] returns [true] exactly on the stores
    that have an active bundle with valid server data. *)
Theorem getHaveServerDataGlobal_true_iff (g : GlobalState) :
  result (getHaveServerDataGlobal (Some g)) = Normal true
  ↔ ∃ s, activeAccountState g = Some s ∧ validServerData s.
Proof.
  destruct (activeAccountState g) as [s|] eqn:E.
  - rewrite (getHaveServerDataGlobal_Some g s E). cbn [store log result].
    rewrite getHaveServerData_result. split.
    + intros H. exists s. split; [done |].
      apply gateValue_true. congruence.
    + intros (s' & Hs & Hv). injection Hs as <-.
      apply gateValue_true in Hv. congruence.
  - rewrite (getHaveServerDataGlobal_None g E). cbn [store log result]. split.
    + intros H. discriminate H.
    + intros (s' & Hs & _). discriminate Hs.
Qed.

(** X4: the answer of [getHaveServerDataGlobal] depends on the store
    only through its active bundle: two stores that resolve to the same
    bundle, or both to none, get the same completion and the same log,
    whatever accounts they hold beside it. *)
Theorem getHaveServerDataGlobal_active_only (g1 g2 : GlobalState) :
  activeAccountState g1 = activeAccountState g2 →
  result (getHaveServerDataGlobal (Some g1)) =
    result (getHaveServerDataGlobal (Some g2))
  ∧ log (getHaveServerDataGlobal (Some g1)) =
      log (getHaveServerDataGlobal (Some g2)).
Proof.
  intros H. destruct (activeAccountState g2) as [s|] eqn:E.
  - by rewrite (getHaveServerDataGlobal_Some g1 s H),
      (getHaveServerDataGlobal_Some g2 s E).
  - by rewrite (getHaveServerDataGlobal_None g1 H),
      (getHaveServerDataGlobal_None g2 E).
Qed.

Lemma getHaveServerDataGlobal_active_only_witness :
  accountStates tornStore ≠ accountStates tornOnlyStore
  ∧ result (getHaveServerDataGlobal (Some tornStore)) =
      result (getHaveServerDataGlobal (Some tornOnlyStore)).
Proof.
  split.
  - intros H.
    assert (E : accountStates tornStore !! "a@chat.example.org"
                = accountStates tornOnlyStore !! "a@chat.example.org")
      by (rewrite H; reflexivity).
    vm_compute in E. discriminate E.
  - apply (getHaveServerDataGlobal_active_only tornStore tornOnlyStore).
    vm_compute. reflexivity.
Defined.

(** X5: the global gate runs the per-account gate exactly when the
    store has an active bundle. *)
Theorem getHaveServerDataGlobal_evaluates_iff (g : GlobalState) :
  Call_getHaveServerData ∈ log (getHaveServerDataGlobal (Some g))
  ↔ is_Some (activeAccountState g).
Proof.
  destruct (activeAccountState g) as [s|] eqn:E.
  - rewrite (getHaveServerDataGlobal_Some g s E). cbn [store log result]. split.
    + intros _. by eexists.
    + intros _. apply elem_of_app. right.
      apply getHaveServerData_logged.
  - rewrite (getHaveServerDataGlobal_None g E). cbn [store log result].
    rewrite !elem_of_cons, elem_of_nil, <- not_eq_None_Some.
    intuition congruence.
Qed.

(** X6: [getHaveServerData] looks at the users only through the set of
    their identifiers: two bundles that agree on whether a credential is
    present and on [realm.user_id], and whose users carry the same
    identifiers, get the same answer, whatever the order, the number or
    the other fields of the records. *)
Theorem getHaveServerData_users_by_ids (s1 s2 : PerAccountState) :
  (is_Some (auth s1) ↔ is_Some (auth s2)) →
  user_id (realm s1) = user_id (realm s2) →
  (∀ i, (∃ u, u ∈ users s1 ∧ User.user_id u = i)
        ↔ (∃ u, u ∈ users s2 ∧ User.user_id u = i)) →
  result (getHaveServerData (Some s1)) = result (getHaveServerData (Some s2)).
Proof.
  intros Ha Hi Hu. rewrite !getHaveServerData_result. f_equal.
  assert (Hv : ∀ a b : PerAccountState,
             (is_Some (auth a) → is_Some (auth b)) →
             user_id (realm a) = user_id (realm b) →
             (∀ i, (∃ u, u ∈ users a ∧ User.user_id u = i)
                   → (∃ u, u ∈ users b ∧ User.user_id u = i)) →
             validServerData a → validServerData b).
  { intros a b Hab Hib Hub (Hauth & _ & i & Hid & Hex).
    split; [by apply Hab |].
    destruct (Hub i Hex) as (u & Hin & Hui).
    split; [intros Hnil; rewrite Hnil in Hin; by apply elem_of_nil in Hin |].
    exists i. split; [congruence |]. by exists u. }
  destruct (gateValue s1) eqn:E1, (gateValue s2) eqn:E2; try done.
  - apply gateValue_true in E1. apply gateValue_false in E2.
    destruct E2. apply (Hv s1 s2); [apply Ha | done | apply Hu | done].
  - apply gateValue_false in E1. apply gateValue_true in E2.
    destruct E1.
    apply (Hv s2 s1); [apply Ha | done | intros i; apply Hu | done].
Qed.

Lemma getHaveServerData_users_by_ids_witness :
  users validBundle ≠ users crowdedBundle
  ∧ result (getHaveServerData (Some validBundle)) =
      result (getHaveServerData (Some crowdedBundle)).
Proof.
  split; [discriminate |].
  apply (getHaveServerData_users_by_ids validBundle crowdedBundle).
  - split; intros _; eexists; reflexivity.
  - reflexivity.
  - intros i. split.
    + intros (u & Hin & Hid). apply list_elem_of_singleton in Hin.
      rewrite Hin in Hid. simpl in Hid.
      exists {| User.user_id := 7; User.name := "a" |}.
      split; [| exact Hid].
      apply elem_of_cons. right. apply elem_of_cons. left. reflexivity.
    + intros (u & Hin & Hid).
      exists {| User.user_id := 7; User.name := "a" |}.
      split; [apply elem_of_cons; left; reflexivity |].
      apply elem_of_cons in Hin as [Hin | Hin].
      * rewrite Hin in Hid. exact Hid.
      * apply list_elem_of_singleton in Hin. rewrite Hin in Hid. exact Hid.
Defined.

(** X7: the check that users is not empty never decides the answer
    alone: [getHaveServerData] returns [true] exactly when the credential
    is present, [realm.user_id] is defined and the map from identifiers
    to records has a record for it. *)
Theorem getHaveServerData_true_iff_lookup (s : PerAccountState) :
  result (getHaveServerData (Some s)) = Normal true
  ↔ is_Some (auth s)
    ∧ ∃ i, user_id (realm s) = Some i
           ∧ is_Some (usersById (users s) !! i).
Proof.
  rewrite getHaveServerData_result. split.
  - intros H. injection H as H.
    apply gateValue_true in H as (Ha & _ & i & Hi & Hex).
    split; [done |]. exists i. split; [done |].
    by apply usersById_is_Some.
  - intros (Ha & i & Hi & Hex). f_equal. apply gateValue_true.
    apply usersById_is_Some in Hex as (u & Hin & Hid).
    split; [done |].
    split; [intros Hnil; rewrite Hnil in Hin; by apply elem_of_nil in Hin |].
    exists i. split; [done |]. by exists u.
Qed.
